(** * cultivator: the packaging manifest [setup.py]

    The repository consists of one file, [setup.py], a setuptools manifest.
    This development carries
    - the text of the file, byte for byte ([setup_py]);
    - a tokenizer and a recursive-descent parser for the fragment of Python
      the file is written in (import-from statements and expression
      statements built from strings, lists, names and calls);
    - an evaluator for that fragment, in which a call of an imported function
      is recorded as an event of the run;
    - the metadata mapping handed to [setuptools.setup], and the facts about
      it. *)

From Stdlib Require Import Ascii String List Arith Bool Lia.
From stdpp Require Import base option list strings gmap.
Import ListNotations.

Set Warnings "-register-all".
Open Scope string_scope.
Open Scope list_scope.

(* ===================================================================== *)
(** ** The source text *)
(* ===================================================================== *)

Module Source.

Definition LF : ascii := "010"%char.
Definition DQUOTE : ascii := "034"%char.
Definition SQUOTE : ascii := "039"%char.

(** A double-quoted Python string literal, as it is spelled in the file. *)
Definition dquoted (s : string) : string :=
  String DQUOTE (s +:+ String DQUOTE EmptyString).

(** The rows of [setup.py], in order.  Row 1 and row 3 are empty; row 16,
    the closing parenthesis, is not terminated by a line feed. *)
Definition setup_py_rows : list string :=
  [ EmptyString
  ; "from setuptools import setup"
  ; EmptyString
  ; "setup("
  ; "    name='cultivator',"
  ; "    version='0.0.0',"
  ; "    author='Jacob Schreiber',"
  ; "    author_email='jmschreiber91@gmail.com',"
  ; "    packages=['cultivator'],"
  ; "    url='http://pypi.python.org/pypi/cultivator/',"
  ; "    license='LICENSE.txt',"
  ; "    description='A tool for generating covariate-matched and diversity-maximizing subsets. Generally useful, for built with genomic applications in mind.',"
  ; "    install_requires=["
  ; "        " +:+ dquoted "numpy >= 1.14.2"
  ; "    ],"
  ; ")" ].

(** [sep.join(rows)] *)
Fixpoint join (sep : ascii) (rows : list string) : string :=
  match rows with
  | [] => EmptyString
  | [r] => r
  | r :: rs => r +:+ String sep (join sep rs)
  end.

(** The file itself: 476 bytes. *)
Definition setup_py : string := Eval vm_compute in join LF setup_py_rows.

(** The files of the repository. *)
Definition repository_files : list string := [ "setup.py" ].

(** *** Counting lines *)

(** The number of line feeds of a text: the line count of [wc -l], the
    number of newline-terminated lines. *)
Fixpoint line_count (s : string) : nat :=
  match s with
  | EmptyString => 0
  | String c s' => (if Ascii.eqb c LF then 1 else 0) + line_count s'
  end.

(** [s.split(sep)]: the pieces of a text between the occurrences of a
    separator, the last one being what follows the last separator. *)
Fixpoint split_from (sep : ascii) (cur : string) (s : string) : list string :=
  match s with
  | EmptyString => [String.rev cur]
  | String c s' =>
      if Ascii.eqb c sep then String.rev cur :: split_from sep EmptyString s'
      else split_from sep (String c cur) s'
  end.

Definition split (sep : ascii) (s : string) : list string :=
  split_from sep EmptyString s.

(** The rows of a text, as an editor numbers them. *)
Definition rows (s : string) : list string := split LF s.

Definition is_space (c : ascii) : bool :=
  Ascii.eqb c " "%char || Ascii.eqb c "009"%char || Ascii.eqb c "013"%char.

Fixpoint all_chars (p : ascii -> bool) (s : string) : bool :=
  match s with
  | EmptyString => true
  | String c s' => p c && all_chars p s'
  end.

Definition is_blank (row : string) : bool := all_chars is_space row.

End Source.

(* ===================================================================== *)
(** ** Tokens *)
(* ===================================================================== *)

Module Tokenize.
Import Source.

(** The operators of the fragment, under the names of the [token] module. *)
Inductive op := LPAR | RPAR | LSQB | RSQB | COMMA | EQUAL | DOT.

Inductive token :=
| NAME (s : string)
| STRING (s : string)
| OP (o : op)
| NEWLINE.

(** A token with the row of the file it ends on (rows count from 1). *)
Definition ltoken : Type := nat * token.

Definition in_range (lo hi : nat) (c : ascii) : bool :=
  let n := nat_of_ascii c in Nat.leb lo n && Nat.leb n hi.

Definition is_name_start (c : ascii) : bool :=
  in_range 65 90 c || in_range 97 122 c || Ascii.eqb c "_"%char.

Definition is_name_char (c : ascii) : bool :=
  is_name_start c || in_range 48 57 c.

Definition is_quote (c : ascii) : bool :=
  Ascii.eqb c SQUOTE || Ascii.eqb c DQUOTE.

Definition op_of_char (c : ascii) : option op :=
  if Ascii.eqb c "("%char then Some LPAR
  else if Ascii.eqb c ")"%char then Some RPAR
  else if Ascii.eqb c "["%char then Some LSQB
  else if Ascii.eqb c "]"%char then Some RSQB
  else if Ascii.eqb c ","%char then Some COMMA
  else if Ascii.eqb c "="%char then Some EQUAL
  else if Ascii.eqb c "."%char then Some DOT
  else None.

(** What the tokenizer is in the middle of. *)
Inductive mode :=
| Between
| InName (acc : string)
| InString (quote : ascii) (acc : string).

(** The tokenizer state: [depth] counts the open brackets, inside which line
    feeds do not end the logical line; [fresh] says that the current logical
    line has no token yet, [indented] that it started with blanks; [toks]
    holds the tokens read so far, the last one first. *)
Record lexer := Lexer {
  lx_mode : mode;
  depth : nat;
  row : nat;
  fresh : bool;
  indented : bool;
  toks : list ltoken
}.

Definition lexer_init : lexer :=
  Lexer Between 0 1 true false [].

Definition emit (t : token) (l : lexer) : lexer :=
  Lexer Between (depth l) (row l) false (indented l) ((row l, t) :: toks l).

(** A logical line of a module that starts with blanks is an unexpected
    indent: the fragment has no compound statement to open a block. *)
Definition bad_indent (l : lexer) : bool :=
  fresh l && indented l && Nat.eqb (depth l) 0.

(** One character read between two tokens. *)
Definition step_between (l : lexer) (c : ascii) : option lexer :=
  if Ascii.eqb c LF then
    if Nat.eqb (depth l) 0 then
      if fresh l
      then Some (Lexer Between 0 (S (row l)) true false (toks l))
      else Some (Lexer Between 0 (S (row l)) true false ((row l, NEWLINE) :: toks l))
    else Some (Lexer Between (depth l) (S (row l)) (fresh l) (indented l) (toks l))
  else if is_space c then
    Some (Lexer Between (depth l) (row l) (fresh l)
            (indented l || (fresh l && Nat.eqb (depth l) 0)) (toks l))
  else if bad_indent l then None
  else if is_quote c then
    Some (Lexer (InString c EmptyString) (depth l) (row l) false (indented l) (toks l))
  else if is_name_start c then
    Some (Lexer (InName (String c EmptyString)) (depth l) (row l) false (indented l) (toks l))
  else
    match op_of_char c with
    | Some LPAR => Some (Lexer Between (S (depth l)) (row l) false (indented l) ((row l, OP LPAR) :: toks l))
    | Some LSQB => Some (Lexer Between (S (depth l)) (row l) false (indented l) ((row l, OP LSQB) :: toks l))
    | Some RPAR =>
        match depth l with
        | O => None
        | S d => Some (Lexer Between d (row l) false (indented l) ((row l, OP RPAR) :: toks l))
        end
    | Some RSQB =>
        match depth l with
        | O => None
        | S d => Some (Lexer Between d (row l) false (indented l) ((row l, OP RSQB) :: toks l))
        end
    | Some o => Some (emit (OP o) l)
    | None => None
    end.

(** One character read.  A name ends at the first character that cannot
    continue it, which is then read as a character between tokens; a string
    ends at its quote, and may hold neither a line feed nor a backslash
    (escapes are outside the fragment). *)
Definition step (l : lexer) (c : ascii) : option lexer :=
  match lx_mode l with
  | Between => step_between l c
  | InName acc =>
      if is_name_char c
      then Some (Lexer (InName (String c acc)) (depth l) (row l) false (indented l) (toks l))
      else step_between (emit (NAME (String.rev acc)) l) c
  | InString q acc =>
      if Ascii.eqb c q then Some (emit (STRING (String.rev acc)) l)
      else if Ascii.eqb c LF || Ascii.eqb c "092"%char then None
      else Some (Lexer (InString q (String c acc)) (depth l) (row l) false (indented l) (toks l))
  end.

Fixpoint run (l : lexer) (s : string) : option lexer :=
  match s with
  | EmptyString => Some l
  | String c s' =>
      match step l c with
      | Some l' => run l' s'
      | None => None
      end
  end.

(** At the end of the text: a pending name is emitted, an open string or an
    open bracket is an error, and a last logical line that no line feed
    terminates is closed by a NEWLINE token all the same. *)
Definition finish (l : lexer) : option (list ltoken) :=
  match lx_mode l with
  | InString _ _ => None
  | m =>
      let l1 := match m with InName acc => emit (NAME (String.rev acc)) l | _ => l end in
      if negb (Nat.eqb (depth l1) 0) then None
      else if fresh l1 then Some (List.rev (toks l1))
      else Some (List.rev ((row l1, NEWLINE) :: toks l1))
  end.

Definition tokenize (s : string) : option (list ltoken) :=
  match run lexer_init s with
  | Some l => finish l
  | None => None
  end.

(** The reserved words of Python 3. *)
Definition keywords : list string :=
  [ "False"; "None"; "True"; "and"; "as"; "assert"; "async"; "await"
  ; "break"; "class"; "continue"; "def"; "del"; "elif"; "else"; "except"
  ; "finally"; "for"; "from"; "global"; "if"; "import"; "in"; "is"
  ; "lambda"; "nonlocal"; "not"; "or"; "pass"; "raise"; "return"; "try"
  ; "while"; "with"; "yield" ].

Definition is_keyword (s : string) : bool :=
  existsb (String.eqb s) keywords.

(** The reserved words that occur in a token list, in order. *)
Fixpoint keywords_of (ts : list ltoken) : list string :=
  match ts with
  | [] => []
  | (_, NAME s) :: ts' =>
      if is_keyword s then s :: keywords_of ts' else keywords_of ts'
  | _ :: ts' => keywords_of ts'
  end.

(** A row without its leading blanks, and the name it then starts with. *)
Fixpoint strip (s : string) : string :=
  match s with
  | String c s' => if is_space c then strip s' else s
  | EmptyString => EmptyString
  end.

Fixpoint take_name (s : string) : string :=
  match s with
  | String c s' => if is_name_char c then String c (take_name s') else EmptyString
  | EmptyString => EmptyString
  end.

Definition first_word (row : string) : string := take_name (strip row).

(** A function or class definition opens a row of its own, after the
    indentation, with [def], [class], [async] or the [@] of a decorator. *)
Definition starts_definition (row : string) : bool :=
  let w := first_word row in
  String.eqb w "def" || String.eqb w "class" || String.eqb w "async"
  || match strip row with
     | String c _ => Ascii.eqb c "@"%char
     | EmptyString => false
     end.

End Tokenize.

(* ===================================================================== *)
(** ** Abstract syntax and parser *)
(* ===================================================================== *)

Module Ast.

(** Expressions and statements of the fragment, with the constructor and
    field names of the [ast] module.  A [Constant] is a string constant, the
    only kind of constant the fragment has. *)
Inductive expr :=
| Constant (value : string)
| List (elts : list expr)
| Name (id : string)
| Call (func : expr) (args : list expr) (keywords : list (string * expr)).

Inductive stmt :=
| ImportFrom (module : string) (names : list string)
| Expr (value : expr).

(** A statement with the rows of its first and of its last token. *)
Record located := Located {
  first_row : nat;
  last_row : nat;
  node : stmt
}.

(** A literal: a string constant, or a list display of literals. *)
Fixpoint is_literal (e : expr) : bool :=
  match e with
  | Constant _ => true
  | List es => forallb is_literal es
  | Name _ => false
  | Call _ _ _ => false
  end.

End Ast.

Module Parse.
Import Tokenize Ast.

(** Python refuses a call that repeats a keyword argument. *)
Fixpoint distinct (ks : list string) : bool :=
  match ks with
  | [] => true
  | k :: ks' => negb (existsb (String.eqb k) ks') && distinct ks'
  end.

(** Recursive descent, with [n] bounding the depth of the descent.
    - [parse_expr]: an atom (string, name, list display) and its trailers;
    - [parse_trailers]: the calls applied to an expression;
    - [parse_elts]: the elements of a list display, up to its bracket;
    - [parse_args]: the arguments of a call, up to its parenthesis; a
      positional argument may not follow a keyword argument. *)
Fixpoint parse_expr (n : nat) (ts : list ltoken) {struct n}
  : option (expr * list ltoken) :=
  match n with
  | O => None
  | S n' =>
      match ts with
      | (_, STRING s) :: ts' => parse_trailers n' (Constant s) ts'
      | (_, NAME x) :: ts' =>
          if is_keyword x then None else parse_trailers n' (Name x) ts'
      | (_, OP LSQB) :: ts' =>
          match parse_elts n' ts' with
          | Some (es, ts'') => parse_trailers n' (List es) ts''
          | None => None
          end
      | _ => None
      end
  end
with parse_trailers (n : nat) (e : expr) (ts : list ltoken) {struct n}
  : option (expr * list ltoken) :=
  match ts with
  | (_, OP LPAR) :: ts' =>
      match n with
      | O => None
      | S n' =>
          match parse_args n' ts' with
          | Some (args, kws, ts'') =>
              if distinct (map fst kws)
              then parse_trailers n' (Call e args kws) ts''
              else None
          | None => None
          end
      end
  | _ => Some (e, ts)
  end
with parse_elts (n : nat) (ts : list ltoken) {struct n}
  : option (list expr * list ltoken) :=
  match ts with
  | (_, OP RSQB) :: ts' => Some ([], ts')
  | _ =>
      match n with
      | O => None
      | S n' =>
          match parse_expr n' ts with
          | Some (e, (_, OP COMMA) :: ts') =>
              match parse_elts n' ts' with
              | Some (es, ts'') => Some (e :: es, ts'')
              | None => None
              end
          | Some (e, (_, OP RSQB) :: ts') => Some ([e], ts')
          | _ => None
          end
      end
  end
with parse_args (n : nat) (ts : list ltoken) {struct n}
  : option (list expr * list (string * expr) * list ltoken) :=
  match n with
  | O => None
  | S n' =>
      match ts with
      | (_, OP RPAR) :: ts' => Some ([], [], ts')
      | (_, NAME k) :: (_, OP EQUAL) :: ts' =>
          if is_keyword k then None else
          match parse_expr n' ts' with
          | Some (e, (_, OP COMMA) :: ts'') =>
              match parse_args n' ts'' with
              | Some ([], kws, ts3) => Some ([], (k, e) :: kws, ts3)
              | _ => None
              end
          | Some (e, (_, OP RPAR) :: ts'') => Some ([], [(k, e)], ts'')
          | _ => None
          end
      | _ =>
          match parse_expr n' ts with
          | Some (e, (_, OP COMMA) :: ts'') =>
              match parse_args n' ts'' with
              | Some (args, kws, ts3) => Some (e :: args, kws, ts3)
              | None => None
              end
          | Some (e, (_, OP RPAR) :: ts'') => Some ([e], [], ts'')
          | _ => None
          end
      end
  end.

(** The names of [from m import a, b, c], up to the NEWLINE; its row is
    returned with them. *)
Fixpoint parse_names (ts : list ltoken) : option (list string * nat * list ltoken) :=
  match ts with
  | (_, NAME x) :: (r, NEWLINE) :: ts' =>
      if is_keyword x then None else Some ([x], r, ts')
  | (_, NAME x) :: (_, OP COMMA) :: ts' =>
      if is_keyword x then None else
      match parse_names ts' with
      | Some (xs, r, ts'') => Some (x :: xs, r, ts'')
      | None => None
      end
  | _ => None
  end.

(** One statement: [from m import names], or an expression. *)
Definition parse_stmt (n : nat) (ts : list ltoken) : option (located * list ltoken) :=
  match ts with
  | (r1, NAME x) :: (_, NAME m) :: (_, NAME y) :: ts' =>
      if String.eqb x "from" then
        if String.eqb y "import" && negb (is_keyword m) then
          match parse_names ts' with
          | Some (xs, r2, ts'') => Some (Located r1 r2 (ImportFrom m xs), ts'')
          | None => None
          end
        else None
      else None
  | (r1, _) :: _ =>
      match parse_expr n ts with
      | Some (e, (r2, NEWLINE) :: ts') => Some (Located r1 r2 (Expr e), ts')
      | _ => None
      end
  | [] => None
  end.

Fixpoint parse_module (n : nat) (ts : list ltoken) : option (list located) :=
  match ts with
  | [] => Some []
  | _ =>
      match n with
      | O => None
      | S n' =>
          match parse_stmt n' ts with
          | Some (s, ts') =>
              match parse_module n' ts' with
              | Some ss => Some (s :: ss)
              | None => None
              end
          | None => None
          end
      end
  end.

(** From the text of a module to its statements; [None] when the text is
    outside the fragment.  No descent is deeper than the number of tokens. *)
Definition parse (src : string) : option (list located) :=
  match tokenize src with
  | Some ts => parse_module (S (length ts)) ts
  | None => None
  end.

End Parse.

(* ===================================================================== *)
(** ** Evaluation *)
(* ===================================================================== *)

Module Eval.
Import Ast.

(** Values.  [VExtern m x] is the attribute [x] of the imported module [m],
    whose code is not part of the repository; [VOpaque n] is what the call
    recorded as event [n] of the run returned. *)
Inductive value :=
| VStr (s : string)
| VList (vs : list value)
| VExtern (module name : string)
| VOpaque (n : nat).

(** A call of an imported function: the callee, and the positional and
    keyword arguments it received, evaluated, in the order of the call. *)
Record event := Event {
  callee_module : string;
  callee_name : string;
  positional : list value;
  keyword : list (string * value)
}.

Section Sequences.
Context {A : Type} (ev : A -> list event -> option (value * list event)).

(** Left to right, each evaluation starting from the trace the one before
    it left. *)
Fixpoint eval_seq (es : list A) (tr : list event)
  : option (list value * list event) :=
  match es with
  | [] => Some ([], tr)
  | e :: es' =>
      match ev e tr with
      | Some (v, tr1) =>
          match eval_seq es' tr1 with
          | Some (vs, tr2) => Some (v :: vs, tr2)
          | None => None
          end
      | None => None
      end
  end.

Fixpoint eval_kws (kws : list (string * A)) (tr : list event)
  : option (list (string * value) * list event) :=
  match kws with
  | [] => Some ([], tr)
  | (k, e) :: kws' =>
      match ev e tr with
      | Some (v, tr1) =>
          match eval_kws kws' tr1 with
          | Some (kvs, tr2) => Some ((k, v) :: kvs, tr2)
          | None => None
          end
      | None => None
      end
  end.
End Sequences.

(** The value of an expression under the global names [g], and the trace
    extended by the calls the evaluation made.  An unbound name and a call
    of something that is not callable raise, which is [None].  In a call the
    callee is evaluated first, then the positional arguments, then the
    keyword arguments. *)
Fixpoint eval (g : gmap string value) (e : expr) (tr : list event) {struct e}
  : option (value * list event) :=
  match e with
  | Constant s => Some (VStr s, tr)
  | Name x =>
      match g !! x with
      | Some v => Some (v, tr)
      | None => None
      end
  | List es =>
      match eval_seq (eval g) es tr with
      | Some (vs, tr1) => Some (VList vs, tr1)
      | None => None
      end
  | Call f args kws =>
      match eval g f tr with
      | Some (fv, tr1) =>
          match eval_seq (eval g) args tr1 with
          | Some (avs, tr2) =>
              match eval_kws (eval g) kws tr2 with
              | Some (kvs, tr3) =>
                  match fv with
                  | VExtern m x =>
                      Some (VOpaque (length tr3), tr3 ++ [Event m x avs kvs])
                  | _ => None
                  end
              | None => None
              end
          | None => None
          end
      | None => None
      end
  end.

(** The state of a run: the global names of the module and the trace. *)
Record state := State {
  globals : gmap string value;
  trace : list event
}.

Definition bind_imports (m : string) (xs : list string) (g : gmap string value)
  : gmap string value :=
  foldl (fun g x => <[x := VExtern m x]> g) g xs.

(** [from m import xs] binds each name to the attribute of the module,
    which is taken to be installed; an expression statement is evaluated and
    its value dropped. *)
Definition exec (st : state) (s : stmt) : option state :=
  match s with
  | ImportFrom m xs => Some (State (bind_imports m xs (globals st)) (trace st))
  | Expr e =>
      match eval (globals st) e (trace st) with
      | Some (_, tr) => Some (State (globals st) tr)
      | None => None
      end
  end.

Fixpoint exec_all (st : state) (ss : list stmt) : option state :=
  match ss with
  | [] => Some st
  | s :: ss' =>
      match exec st s with
      | Some st' => exec_all st' ss'
      | None => None
      end
  end.

(** Running the text of a module from the global names [g0]. *)
Definition run_module (g0 : gmap string value) (src : string) : option state :=
  match Parse.parse src with
  | Some ss => exec_all (State g0 []) (map node ss)
  | None => None
  end.

End Eval.

(* ===================================================================== *)
(** ** Requirement strings and paths *)
(* ===================================================================== *)

Module Requirement.
Import Source.

(** The version comparison operators of a requirement specifier. *)
Inductive comparator := GE | LE | EQ | NE | GT | LT.

(** A requirement [project comparator release], the form in which the
    manifest writes its dependency: a project name, one comparison, and a
    release of dot-separated numbers. *)
Record requirement := Requirement {
  project : string;
  constraint : comparator;
  release : list nat
}.

Definition comparator_of (s : string) : option comparator :=
  if String.eqb s ">=" then Some GE
  else if String.eqb s "<=" then Some LE
  else if String.eqb s "==" then Some EQ
  else if String.eqb s "!=" then Some NE
  else if String.eqb s ">" then Some GT
  else if String.eqb s "<" then Some LT
  else None.

Definition digit (c : ascii) : option nat :=
  let n := nat_of_ascii c in
  if Nat.leb 48 n && Nat.leb n 57 then Some (n - 48) else None.

Fixpoint decimal_from (acc : nat) (s : string) : option nat :=
  match s with
  | EmptyString => Some acc
  | String c s' =>
      match digit c with
      | Some d => decimal_from (10 * acc + d) s'
      | None => None
      end
  end.

Definition decimal (s : string) : option nat :=
  match s with
  | EmptyString => None
  | _ => decimal_from 0 s
  end.

Fixpoint all_some {A : Type} (l : list (option A)) : option (list A) :=
  match l with
  | [] => Some []
  | Some x :: l' =>
      match all_some l' with
      | Some xs => Some (x :: xs)
      | None => None
      end
  | None :: _ => None
  end.

Definition release_of (s : string) : option (list nat) :=
  all_some (map decimal (split "."%char s)).

Definition nonempty (s : string) : bool :=
  match s with EmptyString => false | _ => true end.

Definition words (s : string) : list string :=
  List.filter nonempty (split " "%char s).

Definition parse (s : string) : option requirement :=
  match words s with
  | [p; c; v] =>
      match comparator_of c, release_of v with
      | Some c', Some v' => Some (Requirement p c' v')
      | _, _ => None
      end
  | _ => None
  end.

(** Releases compare number by number, a missing number counting as 0. *)
Fixpoint release_compare (v w : list nat) : comparison :=
  match v, w with
  | [], _ => if forallb (Nat.eqb 0) w then Eq else Lt
  | _, [] => if forallb (Nat.eqb 0) v then Eq else Gt
  | x :: v', y :: w' =>
      match Nat.compare x y with
      | Eq => release_compare v' w'
      | c => c
      end
  end.

(** The release [v] meets the requirement. *)
Definition satisfies (r : requirement) (v : list nat) : bool :=
  match constraint r, release_compare v (release r) with
  | GE, (Eq | Gt) => true
  | LE, (Eq | Lt) => true
  | EQ, Eq => true
  | NE, (Lt | Gt) => true
  | GT, Gt => true
  | LT, Lt => true
  | _, _ => false
  end.

End Requirement.

Module Paths.
Import Source.

(** The components of a path of the repository. *)
Definition components (path : string) : list string := split "/"%char path.

Definition basename (path : string) : string :=
  List.last (components path) EmptyString.

(** The path lies in a directory named [p], or is the module [p.py]. *)
Definition belongs_to_package (p path : string) : bool :=
  existsb (fun c => String.eqb c p || String.eqb c (p +:+ ".py")) (components path).

Definition ends_with (suffix s : string) : bool :=
  String.prefix (String.rev suffix) (String.rev s).

End Paths.

(* ===================================================================== *)
(** ** The manifest *)
(* ===================================================================== *)

Module Manifest.
Import Source Ast Eval.

Definition is_setup_call (ev : event) : bool :=
  String.eqb (callee_module ev) "setuptools" && String.eqb (callee_name ev) "setup".

(** [setuptools.setup] receives its keyword arguments as one mapping, the
    metadata of the distribution.  A manifest calls it once. *)
Definition metadata_of (tr : list event) : option (gmap string value) :=
  match List.filter is_setup_call tr with
  | [ev] => Some (list_to_map (keyword ev))
  | _ => None
  end.

(** Evaluating [setup.py] from the global names [g0]. *)
Definition evaluate (g0 : gmap string value) : option (gmap string value) :=
  match run_module g0 setup_py with
  | Some st => metadata_of (trace st)
  | None => None
  end.

(** The keyword arguments of the manifest's call, as written. *)
Definition setup_keywords : list (string * expr) :=
  [ ("name", Constant "cultivator")
  ; ("version", Constant "0.0.0")
  ; ("author", Constant "Jacob Schreiber")
  ; ("author_email", Constant "jmschreiber91@gmail.com")
  ; ("packages", List [Constant "cultivator"])
  ; ("url", Constant "http://pypi.python.org/pypi/cultivator/")
  ; ("license", Constant "LICENSE.txt")
  ; ("description", Constant "A tool for generating covariate-matched and diversity-maximizing subsets. Generally useful, for built with genomic applications in mind.")
  ; ("install_requires", List [Constant "numpy >= 1.14.2"]) ].

(** The statements of the manifest. *)
Definition setup_py_body : list stmt :=
  [ ImportFrom "setuptools" ["setup"]
  ; Expr (Call (Name "setup") [] setup_keywords) ].

(** The event of that call, and the mapping it hands over. *)
Definition setup_values : list (string * value) :=
  [ ("name", VStr "cultivator")
  ; ("version", VStr "0.0.0")
  ; ("author", VStr "Jacob Schreiber")
  ; ("author_email", VStr "jmschreiber91@gmail.com")
  ; ("packages", VList [VStr "cultivator"])
  ; ("url", VStr "http://pypi.python.org/pypi/cultivator/")
  ; ("license", VStr "LICENSE.txt")
  ; ("description", VStr "A tool for generating covariate-matched and diversity-maximizing subsets. Generally useful, for built with genomic applications in mind.")
  ; ("install_requires", VList [VStr "numpy >= 1.14.2"]) ].

Definition setup_event : event := Event "setuptools" "setup" [] setup_values.

Definition metadata : gmap string value := list_to_map setup_values.

(** The names of the keyword arguments, in the order of the call. *)
Definition fields : list string :=
  [ "name"; "version"; "author"; "author_email"; "packages"; "url"
  ; "license"; "description"; "install_requires" ].

(** The fields the specification names: name, version, author, license and
    the dependency list. *)
Definition fields_named_by_spec : list string :=
  [ "name"; "version"; "author"; "license"; "install_requires" ].

(** A string constant, or a list display of string constants. *)
Definition is_constant (e : expr) : bool :=
  match e with Constant _ => true | _ => false end.

Definition is_string_or_strings (e : expr) : bool :=
  match e with
  | Constant _ => true
  | List es => forallb is_constant es
  | _ => false
  end.

(** A declarative statement: an import, or a call of a name that passes
    literals only. *)
Definition declarative (s : stmt) : bool :=
  match s with
  | ImportFrom _ _ => true
  | Expr (Call (Name _) args kws) =>
      forallb is_literal args && forallb (fun ke => is_literal (snd ke)) kws
  | Expr _ => false
  end.

End Manifest.


(* ===================================================================== *)
(** ** Layout of the text, values of literals *)
(* ===================================================================== *)

Module Layout.
Import Source Tokenize Ast Eval.

(** A printable ASCII character: no control character (tab, carriage
    return) and no byte outside ASCII. *)
Definition printable (c : ascii) : bool := in_range 32 126 c.

(** The number of spaces a row starts with. *)
Fixpoint indent (row : string) : nat :=
  match row with
  | String c row' => if Ascii.eqb c " "%char then S (indent row') else 0
  | EmptyString => 0
  end.

(** The row ends with a blank. *)
Definition ends_blank (row : string) : bool :=
  match String.rev row with
  | String c _ => is_space c
  | EmptyString => false
  end.

(** What an expression evaluates to under no global names; for a literal,
    its value under any. *)
Definition value_of (e : expr) : value :=
  match eval ∅ e [] with
  | Some (v, _) => v
  | None => VList []
  end.

End Layout.

(* ===================================================================== *)
(** ** Facts about the evaluator *)
(* ===================================================================== *)

Module EvalFacts.
Import Ast Eval.

Section ExprInd.
Variable P : expr -> Prop.
Hypothesis P_Constant : forall s, P (Constant s).
Hypothesis P_List : forall es, Forall P es -> P (List es).
Hypothesis P_Name : forall x, P (Name x).
Hypothesis P_Call : forall f args kws,
  P f -> Forall P args -> Forall (fun ke => P (snd ke)) kws -> P (Call f args kws).

(** Induction on expressions, with the hypothesis for every element of a
    list display and every argument of a call. *)
Fixpoint expr_nested_ind (e : expr) : P e :=
  match e with
  | Constant s => P_Constant s
  | List es =>
      P_List es
        ((fix all (l : list expr) : Forall P l :=
            match l with
            | [] => List.Forall_nil P
            | x :: l' => List.Forall_cons P x l' (expr_nested_ind x) (all l')
            end) es)
  | Name x => P_Name x
  | Call f args kws =>
      P_Call f args kws (expr_nested_ind f)
        ((fix all (l : list expr) : Forall P l :=
            match l with
            | [] => List.Forall_nil P
            | x :: l' => List.Forall_cons P x l' (expr_nested_ind x) (all l')
            end) args)
        ((fix all (l : list (string * expr)) : Forall (fun ke => P (snd ke)) l :=
            match l with
            | [] => List.Forall_nil _
            | ke :: l' =>
                List.Forall_cons (fun ke => P (snd ke)) ke l'
                  (expr_nested_ind (snd ke)) (all l')
            end) kws)
  end.
End ExprInd.

(** The expression has one value under all global names and all traces,
    and its evaluation adds no event. *)
Definition pure (e : expr) : Prop :=
  exists v, forall g tr, eval g e tr = Some (v, tr).

Lemma eval_seq_pure (es : list expr) :
  Forall pure es ->
  exists vs, forall g tr, eval_seq (eval g) es tr = Some (vs, tr).
Proof.
  induction 1 as [| e es [v Hv] _ [vs Hvs]].
  - exists []. reflexivity.
  - exists (v :: vs). intros g tr. cbn [eval_seq]. now rewrite Hv, Hvs.
Qed.

Lemma eval_kws_pure (kws : list (string * expr)) :
  Forall (fun ke => pure (snd ke)) kws ->
  exists kvs, map fst kvs = map fst kws /\
    forall g tr, eval_kws (eval g) kws tr = Some (kvs, tr).
Proof.
  induction 1 as [| [k e] kws [v Hv] _ [kvs [Hk Hkvs]]].
  - exists []. split; reflexivity.
  - exists ((k, v) :: kvs). split.
    + cbn. now rewrite Hk.
    + intros g tr. cbn [eval_kws]. cbn in Hv. now rewrite Hv, Hkvs.
Qed.

(** A literal is pure. *)
Lemma literal_pure (e : expr) : is_literal e = true -> pure e.
Proof.
  induction e as [s | es IH | x | f args kws _ _ _] using expr_nested_ind;
    cbn [is_literal]; intros Hlit; try discriminate.
  - exists (VStr s). reflexivity.
  - assert (Hall : Forall pure es).
    { rewrite forallb_forall in Hlit. rewrite Forall_forall in IH |- *.
      intros e He. apply IH; [exact He |].
      apply Hlit. now apply list_elem_of_In. }
    destruct (eval_seq_pure es Hall) as [vs Hvs].
    exists (VList vs). intros g tr. cbn [eval]. now rewrite Hvs.
Qed.

(** A call of an imported function with literal keyword arguments adds one
    event to the trace, which carries the callee and, under the names of the
    call, values that depend on nothing. *)
Lemma eval_call_literals (f m x : string) (kws : list (string * expr)) :
  forallb (fun ke => is_literal (snd ke)) kws = true ->
  exists kvs, map fst kvs = map fst kws /\
    forall g tr, g !! f = Some (VExtern m x) ->
      eval g (Call (Name f) [] kws) tr
      = Some (VOpaque (length tr), tr ++ [Event m x [] kvs]).
Proof.
  intros Hlit.
  assert (Hall : Forall (fun ke => pure (snd ke)) kws).
  { rewrite forallb_forall in Hlit. rewrite Forall_forall.
    intros ke Hke. apply literal_pure, Hlit. now apply list_elem_of_In. }
  destruct (eval_kws_pure kws Hall) as [kvs [Hk Hkvs]].
  exists kvs. split; [exact Hk |].
  intros g tr Hf. cbn [eval eval_seq]. now rewrite Hf, Hkvs.
Qed.

(** A module that imports a function and calls it once, with literal
    keyword arguments, runs to the same one-event trace from all global
    names. *)
Lemma exec_import_call (m f : string) (kws : list (string * expr)) :
  forallb (fun ke => is_literal (snd ke)) kws = true ->
  exists kvs, map fst kvs = map fst kws /\
    forall g0,
      exec_all (State g0 []) [ImportFrom m [f]; Expr (Call (Name f) [] kws)]
      = Some (State (<[f := VExtern m f]> g0) [Event m f [] kvs]).
Proof.
  intros Hlit.
  destruct (eval_call_literals f m f kws Hlit) as [kvs [Hk Hcall]].
  exists kvs. split; [exact Hk |].
  intros g0. cbn [exec_all exec bind_imports foldl globals trace].
  rewrite Hcall by apply lookup_insert_eq. reflexivity.
Qed.

End EvalFacts.

(* ===================================================================== *)
(** ** The fragment at work on other texts *)
(* ===================================================================== *)

Module Fragment.
Import Source Tokenize Ast Parse Eval.

(** A row that opens a definition is recognised, indented or not. *)
Example def_row_opens_definition :
  starts_definition "def select(X, k):" = true
  /\ starts_definition "    class Cultivator(object):" = true
  /\ starts_definition "@staticmethod" = true
  /\ starts_definition "define(x)" = false.
Proof. repeat split. Qed.

(** A text with a definition, an assignment or an indented block is outside
    the fragment. *)
Example definitions_do_not_parse :
  parse "def f(): pass" = None
  /\ parse "x = 'a'" = None
  /\ parse "  f()" = None.
Proof. repeat split. Qed.

(** Calls nest, and are recorded in the order in which they return. *)
Example nested_calls_in_order :
  trace <$> run_module ∅ (join LF ["from m import f, g"; "f(g('a'), k=[g()])"])
  = Some [ Event "m" "g" [VStr "a"] []
         ; Event "m" "g" [] []
         ; Event "m" "f" [VOpaque 0] [("k", VList [VOpaque 1])] ].
Proof. vm_compute. reflexivity. Qed.

(** An argument that is a name makes the run depend on the global names:
    it fails where the name is unbound, and passes on what the name holds
    where it is bound. *)
Example name_argument_reads_globals :
  let src := join LF ["from m import f"; "f(k=x)"] in
  run_module ∅ src = None
  /\ trace <$> run_module {["x" := VStr "1"]} src
     = Some [Event "m" "f" [] [("k", VStr "1")]]
  /\ trace <$> run_module {["x" := VStr "2"]} src
     = Some [Event "m" "f" [] [("k", VStr "2")]].
Proof. vm_compute. repeat split. Qed.

(** A keyword may not repeat, and no positional argument may follow a
    keyword argument. *)
Example refused_calls :
  parse "f(a='1', a='2')" = None /\ parse "f(a='1', 'x')" = None.
Proof. repeat split. Qed.

End Fragment.

(* ===================================================================== *)
(** ** Facts about the manifest *)
(* ===================================================================== *)

Module ManifestFacts.
Import Source Tokenize Ast Parse Eval Manifest EvalFacts.

(** *** The text, its rows, its tokens, its statements *)

Lemma setup_py_joins_rows : setup_py = join LF setup_py_rows.
Proof. reflexivity. Qed.

Lemma setup_py_length : String.length setup_py = 476.
Proof. reflexivity. Qed.

Lemma rows_setup_py : rows setup_py = setup_py_rows.
Proof. vm_compute. reflexivity. Qed.

Lemma rows_count : length (rows setup_py) = 16.
Proof. vm_compute. reflexivity. Qed.

Lemma nonblank_rows_count :
  length (List.filter (fun r => negb (is_blank r)) (rows setup_py)) = 14.
Proof. vm_compute. reflexivity. Qed.

Lemma keywords_setup_py :
  keywords_of <$> tokenize setup_py = Some ["from"; "import"].
Proof. vm_compute. reflexivity. Qed.

Lemma parse_setup_py :
  parse setup_py
  = Some [ Located 2 2 (ImportFrom "setuptools" ["setup"])
         ; Located 4 16 (Expr (Call (Name "setup") [] setup_keywords)) ].
Proof. vm_compute. reflexivity. Qed.

Lemma body_setup_py : map node <$> parse setup_py = Some setup_py_body.
Proof. rewrite parse_setup_py. reflexivity. Qed.

Lemma fields_setup_keywords : map fst setup_keywords = fields.
Proof. reflexivity. Qed.

Lemma keywords_are_strings :
  Forall (fun ke => is_string_or_strings (snd ke) = true) setup_keywords.
Proof. repeat constructor. Qed.

Lemma string_or_strings_literal (e : expr) :
  is_string_or_strings e = true -> is_literal e = true.
Proof.
  destruct e as [s | es | x | f args kws]; cbn; try congruence.
  induction es as [| e es IH]; cbn; [reflexivity |].
  destruct e; cbn; try discriminate. exact IH.
Qed.

(** *** The run *)

Lemma run_setup_py (g0 : gmap string value) :
  run_module g0 setup_py
  = Some (State (<["setup" := VExtern "setuptools" "setup"]> g0) [setup_event]).
Proof.
  unfold run_module. rewrite parse_setup_py.
  cbn [map node exec_all exec bind_imports foldl globals trace eval eval_seq].
  rewrite lookup_insert_eq. reflexivity.
Qed.

Lemma evaluate_setup_py (g0 : gmap string value) : evaluate g0 = Some metadata.
Proof. unfold evaluate. rewrite run_setup_py. reflexivity. Qed.

(** The mapping made of a keyword list answers a name with the first
    entry under that name. *)
Lemma list_to_map_lookup {V : Type} (l : list (string * V)) (k : string) :
  (list_to_map l : gmap string V) !! k
  = snd <$> List.find (fun kv => String.eqb k (fst kv)) l.
Proof.
  induction l as [| [k' v] l IH].
  - apply lookup_empty.
  - rewrite list_to_map_cons, lookup_insert. cbn [List.find fst].
    case_decide as Hk.
    + subst k'. now rewrite String.eqb_refl.
    + assert (Hne : String.eqb k k' = false)
        by (apply String.eqb_neq; congruence).
      rewrite Hne. exact IH.
Qed.

Lemma metadata_lookup (k : string) :
  metadata !! k = snd <$> List.find (fun kv => String.eqb k (fst kv)) setup_values.
Proof. apply list_to_map_lookup. Qed.

Lemma list_to_map_is_Some {V : Type} (l : list (string * V)) (k : string) :
  is_Some ((list_to_map l : gmap string V) !! k) <-> In k (map fst l).
Proof.
  rewrite list_to_map_lookup.
  induction l as [| [k' v] l IH]; cbn [List.find map fst In].
  - split; [intros [x Hx]; discriminate | tauto].
  - destruct (String.eqb_spec k k') as [-> | Hne].
    + split; [now left | intros _; now eexists].
    + rewrite IH. split; [now right | intros [Heq | Hin]; [congruence | exact Hin]].
Qed.

(** *** The declared metadata *)

(** C1: evaluating the manifest, from any global names, hands setuptools a
    metadata mapping whose [name] is exactly the string cultivator. *)
Theorem name_is_cultivator :
  forall g0 : gmap string value,
    exists md, evaluate g0 = Some md /\ md !! "name" = Some (VStr "cultivator").
Proof.
  intros g0. exists metadata. split; [apply evaluate_setup_py |].
  rewrite metadata_lookup. reflexivity.
Qed.

(** C3: evaluating the manifest, from any global names, hands setuptools a
    metadata mapping whose [version] is exactly the string 0.0.0. *)
Theorem version_is_0_0_0 :
  forall g0 : gmap string value,
    exists md, evaluate g0 = Some md /\ md !! "version" = Some (VStr "0.0.0").
Proof.
  intros g0. exists metadata. split; [apply evaluate_setup_py |].
  rewrite metadata_lookup. reflexivity.
Qed.

(** C2: the dependency list of the metadata, [install_requires], has exactly
    one entry; the entry is the requirement string numpy >= 1.14.2, which
    names the project numpy with the comparison >= and the release 1.14.2,
    so that 1.14.2 meets it and a release meets it exactly when it is not
    below 1.14.2. *)
Theorem install_requires_numpy :
  forall g0 : gmap string value,
    exists md r req,
      evaluate g0 = Some md /\
      md !! "install_requires" = Some (VList [VStr r]) /\
      r = "numpy >= 1.14.2" /\
      Requirement.parse r = Some req /\
      req = Requirement.Requirement "numpy" Requirement.GE [1; 14; 2] /\
      Requirement.satisfies req [1; 14; 2] = true /\
      forall v, Requirement.satisfies req v = true
                <-> Requirement.release_compare v [1; 14; 2] <> Lt.
Proof.
  intros g0.
  exists metadata, "numpy >= 1.14.2",
    (Requirement.Requirement "numpy" Requirement.GE [1; 14; 2]).
  split; [apply evaluate_setup_py |].
  split; [rewrite metadata_lookup; reflexivity |].
  repeat (split; [reflexivity |]).
  intros v. unfold Requirement.satisfies. cbn [Requirement.constraint Requirement.release].
  destruct (Requirement.release_compare v [1; 14; 2]); split; congruence.
Qed.

(** C8: the call of setup passes neither [entry_points] nor [scripts], the
    metadata holds nothing under these names, and the call of setup is the
    one event of the run: the manifest declares no console script and does
    nothing else (it opens no file, no socket, no store). *)
Theorem no_command_line_interface :
  map node <$> parse setup_py = Some setup_py_body /\
  ~ In "entry_points" (map fst setup_keywords) /\
  ~ In "scripts" (map fst setup_keywords) /\
  forall g0 : gmap string value,
    exists md st,
      evaluate g0 = Some md /\
      md !! "entry_points" = None /\
      md !! "scripts" = None /\
      run_module g0 setup_py = Some st /\
      trace st = [setup_event].
Proof.
  split; [apply body_setup_py |].
  split; [cbn; intuition discriminate |].
  split; [cbn; intuition discriminate |].
  intros g0. eexists metadata, _.
  split; [apply evaluate_setup_py |].
  split; [rewrite metadata_lookup; reflexivity |].
  split; [rewrite metadata_lookup; reflexivity |].
  split; [apply run_setup_py | reflexivity].
Qed.

(** C7: the [license] of the metadata is the string LICENSE.txt, the name of
    a text file, and no file of the repository has that name. *)
Theorem license_file_not_included (f : string) (Hf : In f repository_files) :
  (forall g0 : gmap string value,
     exists md, evaluate g0 = Some md /\
                md !! "license" = Some (VStr "LICENSE.txt")) /\
  Paths.ends_with ".txt" "LICENSE.txt" = true /\
  f <> "LICENSE.txt" /\
  Paths.basename f <> "LICENSE.txt".
Proof.
  split.
  { intros g0. exists metadata. split; [apply evaluate_setup_py |].
    rewrite metadata_lookup. reflexivity. }
  split; [reflexivity |].
  destruct Hf as [<- | []]. split; discriminate.
Qed.

Lemma license_file_not_included_witness :
  In "setup.py" repository_files /\
  ((forall g0 : gmap string value,
      exists md, evaluate g0 = Some md /\
                 md !! "license" = Some (VStr "LICENSE.txt")) /\
   Paths.ends_with ".txt" "LICENSE.txt" = true /\
   "setup.py" <> "LICENSE.txt" /\
   Paths.basename "setup.py" <> "LICENSE.txt").
Proof.
  split; [left; reflexivity |].
  apply (license_file_not_included "setup.py"). left; reflexivity.
Defined.

(** C9: the [packages] of the metadata name one package, cultivator, and no
    file of the repository lies in a directory of that name or is the module
    cultivator.py. *)
Theorem package_contents_absent (f : string) (Hf : In f repository_files) :
  (forall g0 : gmap string value,
     exists md, evaluate g0 = Some md /\
                md !! "packages" = Some (VList [VStr "cultivator"])) /\
  Paths.belongs_to_package "cultivator" f = false.
Proof.
  split.
  { intros g0. exists metadata. split; [apply evaluate_setup_py |].
    rewrite metadata_lookup. reflexivity. }
  destruct Hf as [<- | []]. reflexivity.
Qed.

Lemma package_contents_absent_witness :
  In "setup.py" repository_files /\
  ((forall g0 : gmap string value,
      exists md, evaluate g0 = Some md /\
                 md !! "packages" = Some (VList [VStr "cultivator"])) /\
   Paths.belongs_to_package "cultivator" "setup.py" = false).
Proof.
  split; [left; reflexivity |].
  apply (package_contents_absent "setup.py"). left; reflexivity.
Defined.

(** C10: every argument of the call of setup is a string constant or a list
    of string constants, and the evaluation of the manifest succeeds with
    the same trace and the same metadata from any two sets of global
    names. *)
Theorem evaluation_input_independent :
  map node <$> parse setup_py = Some setup_py_body /\
  Forall (fun ke => is_string_or_strings (snd ke) = true) setup_keywords /\
  forall g1 g2 : gmap string value,
    is_Some (evaluate g1) /\
    evaluate g1 = evaluate g2 /\
    trace <$> run_module g1 setup_py = trace <$> run_module g2 setup_py.
Proof.
  split; [apply body_setup_py |].
  split; [apply keywords_are_strings |].
  assert (Hlit : forallb (fun ke => is_literal (snd ke)) setup_keywords = true).
  { apply forallb_forall. intros ke Hke. apply string_or_strings_literal.
    pose proof keywords_are_strings as Hall.
    rewrite List.Forall_forall in Hall. now apply Hall. }
  destruct (exec_import_call "setuptools" "setup" setup_keywords Hlit)
    as [kvs [_ Hrun]].
  assert (Hall : forall g, run_module g setup_py
                           = Some (State (<["setup" := VExtern "setuptools" "setup"]> g)
                                         [Event "setuptools" "setup" [] kvs])).
  { intros g. unfold run_module. rewrite parse_setup_py. apply Hrun. }
  intros g1 g2. unfold evaluate. rewrite !Hall. cbn [trace fmap option_fmap option_map].
  split; [now eexists |]. split; reflexivity.
Qed.

(** *** The fields *)

(** C6, as stated, fails: evaluated from no global names at all, the
    manifest yields a mapping that holds [author_email], which is not one
    of the five fields the specification names. *)
Lemma fields_not_only_those_named :
  ~ (forall md, evaluate ∅ = Some md ->
       forall k, is_Some (md !! k) <-> In k fields_named_by_spec).
Proof.
  intros Hclaim.
  specialize (Hclaim metadata (evaluate_setup_py ∅) "author_email").
  destruct Hclaim as [Hin _].
  assert (Hsome : is_Some (metadata !! "author_email")).
  { rewrite metadata_lookup. now eexists. }
  apply Hin in Hsome. cbn in Hsome. intuition discriminate.
Qed.

(** C6, amended: the call of setup passes exactly the nine fields name,
    version, author, author_email, packages, url, license, description and
    install_requires, the five named ones among them; the metadata holds
    exactly these; each value is a string constant or a list of string
    constants, with one value under all global names and no event added to
    the trace by its evaluation. *)
Theorem manifest_fields :
  map node <$> parse setup_py = Some setup_py_body /\
  map fst setup_keywords = fields /\
  incl fields_named_by_spec fields /\
  Forall (fun ke => is_string_or_strings (snd ke) = true /\ pure (snd ke))
         setup_keywords /\
  forall g0 : gmap string value,
    exists md, evaluate g0 = Some md /\
               forall k, is_Some (md !! k) <-> In k fields.
Proof.
  split; [apply body_setup_py |].
  split; [reflexivity |].
  split.
  { intros k Hk. cbn in Hk |- *. intuition. }
  split.
  { pose proof keywords_are_strings as Hall.
    rewrite List.Forall_forall in Hall |- *. intros ke Hke.
    split; [now apply Hall |].
    apply literal_pure, string_or_strings_literal. now apply Hall. }
  intros g0. exists metadata. split; [apply evaluate_setup_py |].
  intros k. unfold metadata. rewrite list_to_map_is_Some. reflexivity.
Qed.

(** *** The shape of the file *)

Lemma no_row_starts_definition (row : string) :
  In row (rows setup_py) -> starts_definition row = false.
Proof.
  assert (Hall : forallb (fun r => negb (starts_definition r)) (rows setup_py) = true)
    by (vm_compute; reflexivity).
  rewrite forallb_forall in Hall. intros Hin.
  apply negb_true_iff. apply Hall. exact Hin.
Qed.

(** C5: every statement of the manifest starts on a row that opens no
    function or class definition, and is either the import of setup from
    setuptools or the call of setup with its keyword arguments, each a
    string constant or a list of string constants; no row of the file at all
    opens a definition; the only reserved words of the file are [from] and
    [import]; and the run consists of the one call of setuptools.setup. *)
Theorem no_definitions (ss : list located) (s : located)
  (Hparse : parse setup_py = Some ss) (Hs : In s ss) :
  (exists row, rows setup_py !! (first_row s - 1) = Some row /\
               starts_definition row = false) /\
  (node s = ImportFrom "setuptools" ["setup"] \/
   node s = Expr (Call (Name "setup") [] setup_keywords)) /\
  Forall (fun ke => is_string_or_strings (snd ke) = true) setup_keywords /\
  (forall row, In row (rows setup_py) -> starts_definition row = false) /\
  keywords_of <$> tokenize setup_py = Some ["from"; "import"] /\
  forall g0 : gmap string value,
    exists st, run_module g0 setup_py = Some st /\ trace st = [setup_event].
Proof.
  rewrite parse_setup_py in Hparse. injection Hparse as <-.
  split; [| split; [| split; [| split; [| split]]]].
  - destruct Hs as [<- | [<- | []]]; cbn [first_row]; rewrite rows_setup_py;
      eexists; (split; [reflexivity | vm_compute; reflexivity]).
  - destruct Hs as [<- | [<- | []]]; [left | right]; reflexivity.
  - apply keywords_are_strings.
  - apply no_row_starts_definition.
  - apply keywords_setup_py.
  - intros g0. eexists. split; [apply run_setup_py | reflexivity].
Qed.

Lemma no_definitions_witness :
  parse setup_py
  = Some [ Located 2 2 (ImportFrom "setuptools" ["setup"])
         ; Located 4 16 (Expr (Call (Name "setup") [] setup_keywords)) ] /\
  In (Located 4 16 (Expr (Call (Name "setup") [] setup_keywords)))
     [ Located 2 2 (ImportFrom "setuptools" ["setup"])
     ; Located 4 16 (Expr (Call (Name "setup") [] setup_keywords)) ] /\
  exists row, rows setup_py !! 3 = Some row /\ starts_definition row = false.
Proof.
  split; [vm_compute; reflexivity |].
  split; [right; left; reflexivity |].
  apply (no_definitions
           [ Located 2 2 (ImportFrom "setuptools" ["setup"])
           ; Located 4 16 (Expr (Call (Name "setup") [] setup_keywords)) ]
           (Located 4 16 (Expr (Call (Name "setup") [] setup_keywords)))).
  - vm_compute; reflexivity.
  - right; left; reflexivity.
Defined.

(** C4: the file has 15 lines, counted as [wc -l] counts them, by their
    line feeds: the text splits at them into 16 rows, the last of which,
    the closing parenthesis, has no line feed after it.  Every row is blank
    or lies within a declarative statement, an import or a call that passes
    literals only; and no reserved word other than [from] and [import]
    occurs, so no row holds a definition, a branch or a loop. *)
Theorem fifteen_lines_of_metadata (i : nat) (row : string)
  (Hrow : rows setup_py !! i = Some row) :
  line_count setup_py = 15 /\
  length (rows setup_py) = 16 /\
  (is_blank row = true \/
   exists ss s, parse setup_py = Some ss /\ In s ss /\
                first_row s <= S i <= last_row s /\
                declarative (node s) = true) /\
  keywords_of <$> tokenize setup_py = Some ["from"; "import"].
Proof.
  split; [vm_compute; reflexivity |].
  split; [apply rows_count |].
  split; [| apply keywords_setup_py].
  rewrite rows_setup_py in Hrow. unfold setup_py_rows in Hrow.
  do 16 (destruct i as [| i];
         [ cbn in Hrow; injection Hrow as <-;
           first
             [ left; reflexivity
             | right; eexists _, _; split; [apply parse_setup_py |];
               first
                 [ split; [left; reflexivity |]; cbn [first_row last_row];
                   split; [lia | reflexivity]
                 | split; [right; left; reflexivity |]; cbn [first_row last_row];
                   split; [lia | reflexivity] ] ]
         | ]).
  discriminate Hrow.
Qed.

Lemma fifteen_lines_of_metadata_witness :
  rows setup_py !! 4 = Some "    name='cultivator'," /\
  line_count setup_py = 15.
Proof.
  split; [vm_compute; reflexivity |].
  apply (fifteen_lines_of_metadata 4 "    name='cultivator',").
  vm_compute; reflexivity.
Defined.

End ManifestFacts.

(* ===================================================================== *)
(** ** Further properties of the manifest *)
(* ===================================================================== *)

Module ManifestProperties.
Import Source Tokenize Ast Parse Eval Manifest Layout EvalFacts ManifestFacts.
Import Requirement.

(** *** Releases *)









(** *** Values of literal keyword arguments *)

Lemma pure_value_of (e : expr) :
  pure e -> forall g tr, eval g e tr = Some (value_of e, tr).
Proof.
  intros [v Hv] g tr. unfold value_of. rewrite (Hv ∅ []). apply Hv.
Qed.

Lemma eval_kws_values (kws : list (string * expr)) :
  Forall (fun ke => pure (snd ke)) kws ->
  forall g tr,
    eval_kws (eval g) kws tr
    = Some (map (fun ke => (fst ke, value_of (snd ke))) kws, tr).
Proof.
  induction 1 as [| [k e] kws He _ IH]; intros g tr.
  - reflexivity.
  - cbn [eval_kws map fst snd]. cbn [snd] in He.
    now rewrite (pure_value_of e He), IH.
Qed.

Lemma setup_values_of_keywords :
  map (fun ke => (fst ke, value_of (snd ke))) setup_keywords = setup_values.
Proof. reflexivity. Qed.

Lemma setup_keywords_pure : Forall (fun ke => pure (snd ke)) setup_keywords.
Proof.
  pose proof keywords_are_strings as Hall.
  rewrite List.Forall_forall in Hall |- *. intros ke Hke.
  apply literal_pure, string_or_strings_literal. now apply Hall.
Qed.

Lemma setup_values_distinct : NoDup (map fst setup_values).
Proof. apply (bool_decide_unpack _). vm_compute. exact I. Qed.

(** *** The remaining fields *)

(** X1: the metadata holds the author Jacob Schreiber, the address
    jmschreiber91@gmail.com under [author_email], and under [description]
    the one-sentence summary of the file, a text without a line feed. *)
Theorem author_and_description :
  forall g0 : gmap string value,
    exists md d,
      evaluate g0 = Some md /\
      md !! "author" = Some (VStr "Jacob Schreiber") /\
      md !! "author_email" = Some (VStr "jmschreiber91@gmail.com") /\
      md !! "description" = Some (VStr d) /\
      d = "A tool for generating covariate-matched and diversity-maximizing subsets. Generally useful, for built with genomic applications in mind." /\
      line_count d = 0.
Proof.
  intros g0. eexists metadata, _. split; [apply evaluate_setup_py |].
  rewrite !metadata_lookup. repeat split.
Qed.

(** X2: the name, the package list and the address of the project agree:
    for the name [n] of the metadata, [packages] is the list holding [n]
    alone and [url] is the index address http://pypi.python.org/pypi/
    followed by [n] and a slash. *)
Theorem name_packages_url_agree :
  forall g0 : gmap string value,
    exists md n,
      evaluate g0 = Some md /\
      md !! "name" = Some (VStr n) /\
      md !! "packages" = Some (VList [VStr n]) /\
      md !! "url" = Some (VStr ("http://pypi.python.org/pypi/" +:+ n +:+ "/")).
Proof.
  intros g0. exists metadata, "cultivator". split; [apply evaluate_setup_py |].
  rewrite !metadata_lookup. repeat split.
Qed.

(** *** The run and its global names *)

(** X3: the run binds [setup] to setuptools.setup and leaves every other
    global name as it found it. *)
Theorem run_binds_only_setup (g0 : gmap string value) (k : string)
  (Hk : k <> "setup") :
  exists st,
    run_module g0 setup_py = Some st /\
    globals st !! "setup" = Some (VExtern "setuptools" "setup") /\
    globals st !! k = g0 !! k.
Proof.
  eexists. split; [apply run_setup_py |]. cbn [globals]. split.
  - apply lookup_insert_eq.
  - apply lookup_insert_ne. congruence.
Qed.

Lemma run_binds_only_setup_witness :
  "name" <> "setup" /\
  exists st,
    run_module {["name" := VStr "x"]} setup_py = Some st /\
    globals st !! "setup" = Some (VExtern "setuptools" "setup") /\
    globals st !! "name" = ({["name" := VStr "x"]} : gmap string value) !! "name".
Proof.
  split; [discriminate |].
  apply (run_binds_only_setup {["name" := VStr "x"]} "name"). discriminate.
Defined.



(** X5: the order of the keyword arguments does not matter.  With the
    keyword arguments of the call in any other order the manifest runs, from
    any global names, to the same metadata: no keyword occurs twice. *)
Theorem keyword_order_irrelevant (kws : list (string * expr))
  (g0 : gmap string value) (Hperm : Permutation kws setup_keywords) :
  exists st,
    exec_all (State g0 [])
      [ImportFrom "setuptools" ["setup"]; Expr (Call (Name "setup") [] kws)]
    = Some st /\
    metadata_of (trace st) = Some metadata.
Proof.
  assert (Hpure : Forall (fun ke => pure (snd ke)) kws).
  { rewrite Hperm. apply setup_keywords_pure. }
  eexists. split.
  - cbn [exec_all exec bind_imports foldl globals trace eval eval_seq].
    rewrite lookup_insert_eq, (eval_kws_values _ Hpure). reflexivity.
  - cbn [trace app length]. unfold metadata_of. cbn [List.filter is_setup_call
      callee_module callee_name keyword String.eqb Ascii.eqb Bool.eqb andb].
    f_equal. unfold metadata. symmetry.
    apply list_to_map_proper; [apply setup_values_distinct |].
    rewrite <- setup_values_of_keywords. apply Permutation_map.
    symmetry. exact Hperm.
Qed.

Lemma keyword_order_irrelevant_witness :
  Permutation (rev setup_keywords) setup_keywords /\
  exists st,
    exec_all (State ∅ [])
      [ImportFrom "setuptools" ["setup"];
       Expr (Call (Name "setup") [] (rev setup_keywords))]
    = Some st /\
    metadata_of (trace st) = Some metadata.
Proof.
  split; [symmetry; apply Permutation_rev |].
  apply (keyword_order_irrelevant (rev setup_keywords) ∅).
  symmetry; apply Permutation_rev.
Defined.

(** *** The dependency and the version *)




(** *** The text *)

(** X8: every row of the file is made of printable ASCII characters only
    (no tab, no carriage return, no byte outside ASCII), ends with no blank,
    and is indented by 0, 4 or 8 spaces. *)
Theorem rows_are_plain (row : string) (Hrow : In row (rows setup_py)) :
  all_chars printable row = true /\
  ends_blank row = false /\
  (indent row = 0 \/ indent row = 4 \/ indent row = 8).
Proof.
  assert (Hall : forallb
                   (fun r => all_chars printable r && negb (ends_blank r)
                             && (Nat.eqb (indent r) 0 || Nat.eqb (indent r) 4
                                 || Nat.eqb (indent r) 8))
                   (rows setup_py) = true)
    by (vm_compute; reflexivity).
  rewrite forallb_forall in Hall. specialize (Hall row Hrow).
  apply andb_true_iff in Hall as [Hall Hind].
  apply andb_true_iff in Hall as [Hasc Hend].
  split; [exact Hasc |]. split; [now apply negb_true_iff |].
  apply orb_true_iff in Hind as [Hind | Hind];
    [apply orb_true_iff in Hind as [Hind | Hind] |];
    apply Nat.eqb_eq in Hind; auto.
Qed.

Lemma rows_are_plain_witness :
  In "    license='LICENSE.txt'," (rows setup_py) /\
  all_chars printable "    license='LICENSE.txt'," = true /\
  ends_blank "    license='LICENSE.txt'," = false /\
  (indent "    license='LICENSE.txt'," = 0 \/
   indent "    license='LICENSE.txt'," = 4 \/
   indent "    license='LICENSE.txt'," = 8).
Proof.
  split; [vm_compute; tauto |].
  apply (rows_are_plain "    license='LICENSE.txt',"). vm_compute; tauto.
Defined.

End ManifestProperties.
